(** * A schema-validated fetch wrapper and a document-title shell

    Shallow embedding of

      - [hub/demo/src/utils/zod-fetch.ts]: [defaultFetcher] and
        [createZodFetcher];
      - the root layout module: [title], [metadata] and the meta
        description written by [RootLayout].

    An [async] function is embedded as a finite tree of external
    operations ([Async]): every [await] on something the module does not
    define itself (the global [fetch], the body readers of a [Response],
    [console.error], a fetcher handed in by the caller) is a node of the
    tree, answered by the environment.  A rejected promise and a thrown
    exception are the same thing inside an [async] function, and both are
    the [Throw] leaf.  Running a tree against an environment yields the
    settled outcome together with the list of operations performed, in
    order. *)

From Stdlib Require Import String Ascii ZArith List DecimalString DecimalPos DecimalZ.
From ExtLib Require Import Structures.Monad Structures.MonadExc.
Import ListNotations.
Import MonadNotation.
Local Open Scope string_scope.
Local Open Scope list_scope.
Local Open Scope monad_scope.

(** ** Values, responses, errors *)

(** The part of a [Response] object the module looks at: the [ok] flag,
    the numeric [status], and the payload that [json()] and [text()]
    read.  Decoding the payload belongs to the environment. *)
Record Response : Type := mkResponse {
  ok : bool;
  status : Z;
  payload : string
}.

(** JavaScript values as far as they travel through the wrapper
    ([unknown] / [any] in the source). *)
#[warnings="-register-all"]
Inductive Value : Type :=
| VUndefined
| VNull
| VBool (b : bool)
| VNum (n : Z)
| VStr (s : string)
| VArr (items : list Value)
| VObj (fields : list (string * Value))
| VResponse (r : Response).

(** What can be thrown.  [TRPCError] is the typed error of
    [@trpc/server], built from [{ code, message }]; every other error
    object is kept by its name and message; any other thrown value is
    kept as it is. *)
Inductive JsError : Type :=
| TRPCError (code : string) (message : string)
| NativeError (name : string) (message : string)
| Thrown (v : Value).

(** A settled promise. *)
Inductive Outcome (A : Type) : Type :=
| Resolved (a : A)
| Rejected (e : JsError).
Arguments Resolved {A} a.
Arguments Rejected {A} e.

(** ** External operations *)

(** The operations the module awaits but does not define. *)
Inductive Effect : Type -> Type :=
| Fetch (args : list Value) : Effect (Outcome Response)
    (* fetch(...args) *)
| Json (r : Response) : Effect (Outcome Value)
    (* r.json() *)
| Text (r : Response) : Effect (Outcome string)
    (* r.text() *)
| ConsoleError (v : Value) : Effect (Outcome unit)
    (* console.error(v) *)
| Invoke (args : list Value) : Effect (Outcome Value).
    (* a call of a fetcher function owned by the caller *)

(** The record of one performed operation. *)
Inductive Event : Type :=
| EvFetch (args : list Value)
| EvJson (r : Response)
| EvText (r : Response)
| EvConsoleError (v : Value)
| EvInvoke (args : list Value).

Definition event_of {X} (op : Effect X) : Event :=
  match op with
  | Fetch args => EvFetch args
  | Json r => EvJson r
  | Text r => EvText r
  | ConsoleError v => EvConsoleError v
  | Invoke args => EvInvoke args
  end.

Definition isFetch (ev : Event) : bool :=
  match ev with EvFetch _ => true | _ => false end.

(** ** The [Async] monad *)

Inductive Async (A : Type) : Type :=
| Return (a : A)
| Throw (e : JsError)
| Perform (X : Type) (op : Effect X) (k : X -> Async A).
Arguments Return {A} a.
Arguments Throw {A} e.
Arguments Perform {A X} op k.

Fixpoint abind {A B} (p : Async A) (f : A -> Async B) : Async B :=
  match p with
  | Return a => f a
  | Throw e => Throw e
  | Perform op k => Perform op (fun x => abind (k x) f)
  end.

(** [try { p } catch (e) { handler e }], and [p.catch(handler)]. *)
Fixpoint try_catch {A} (p : Async A) (handler : JsError -> Async A) : Async A :=
  match p with
  | Return a => Return a
  | Throw e => handler e
  | Perform op k => Perform op (fun x => try_catch (k x) handler)
  end.

#[global] Instance Monad_Async : Monad Async :=
  {| ret := @Return; bind := @abind |}.

#[global] Instance Exc_Async : MonadExc JsError Async :=
  {| raise := @Throw; catch := @try_catch |}.

(** A settled promise seen from inside an [async] function. *)
Definition settle {A} (o : Outcome A) : Async A :=
  match o with
  | Resolved a => Return a
  | Rejected e => Throw e
  end.

(** [await op]: perform the operation and continue with its value, or
    throw its rejection reason. *)
Definition await {A} (op : Effect (Outcome A)) : Async A :=
  Perform op settle.

(** ** Running against an environment *)

(** An environment answers every operation and may change while doing
    so. *)
Definition Env (W : Type) : Type := forall X, Effect X -> W -> X * W.

Record Run (W A : Type) : Type := mkRun {
  outcome : Outcome A;
  world : W;
  trace : list Event
}.
Arguments mkRun {W A} outcome world trace.
Arguments outcome {W A} r.
Arguments world {W A} r.
Arguments trace {W A} r.

Fixpoint run_from {W A} (env : Env W) (p : Async A) (w : W) (tr : list Event)
  : Run W A :=
  match p with
  | Return a => mkRun (Resolved a) w tr
  | Throw e => mkRun (Rejected e) w tr
  | Perform op k =>
      let '(x, w') := env _ op w in
      run_from env (k x) w' (tr ++ [event_of op])
  end.

Definition run {W A} (env : Env W) (p : Async A) (w : W) : Run W A :=
  run_from env p w [].

(** ** [zod-fetch.ts] *)

(** [Schema<TData>]: an object with a [parse] method ... *)
Record Parser (TData : Type) : Type := mkParser {
  parse : Value -> Outcome TData
}.
Arguments mkParser {TData} parse.
Arguments parse {TData} p data.

(** ... or an object with a [passthrough] method that returns one.  The
    two members of the union are told apart at run time by the presence of
    the [passthrough] property, so a schema is embedded by its two
    optional properties: [passthrough], and [own], the schema itself as a
    parser when it has a [parse] property.  The union type promises that
    one of them is there. *)
Record Schema (TData : Type) : Type := mkSchema {
  passthrough : option (unit -> Outcome (Parser TData));
  own : option (Parser TData)
}.
Arguments mkSchema {TData} passthrough own.
Arguments passthrough {TData} s.
Arguments own {TData} s.

(** [AnyFetcher]. *)
Definition AnyFetcher : Type := list Value -> Async Value.

(** [ZodFetcher<TFetcher>]. *)
Definition ZodFetcher : Type :=
  forall TData : Type, Schema TData -> list Value -> Async TData.

(** A number inside a template literal.  Status codes are integers, for
    which the conversion is the decimal notation. *)
Definition numberToString (n : Z) : string :=
  NilZero.string_of_int (Z.to_int n).

Section ZodFetch.

(** Imported from [./error], which maps an HTTP status code to the
    [code] of a [TRPCError]. *)
Variable statusCodeToTRPCErrorCode : Z -> string.

Definition defaultFetcher (args : list Value) : Async Value :=
  response <- await (Fetch args) ;;
  if negb (ok response) then
    catch
      (body <- catch (await (Json response))
                     (fun _ => text <- await (Text response) ;; ret (VStr text)) ;;
       await (ConsoleError body))
      (fun error => ret tt) ;;
    raise (TRPCError
             (statusCodeToTRPCErrorCode (status response))
             ("Request failed with status: " ++ numberToString (status response))%string)
  else
    await (Json response).

Definition createZodFetcher (fetcher : option AnyFetcher) : ZodFetcher :=
  let fetcher :=
    match fetcher with
    | Some given => given
    | None => defaultFetcher
    end in
  fun TData schema args =>
    response <- fetcher args ;;
    match passthrough schema with
    | Some passthrough =>
        relaxed <- settle (passthrough tt) ;;
        settle (parse relaxed response)
    | None =>
        match own schema with
        | Some strict => settle (parse strict response)
        | None => raise (NativeError "TypeError" "schema.parse is not a function")
        end
    end.

End ZodFetch.
Arguments createZodFetcher statusCodeToTRPCErrorCode fetcher {TData} schema args.

(** A fetcher that lives in the caller's code and is known only by what
    it answers: one [Invoke] per call. *)
Definition callerFetcher : AnyFetcher :=
  fun args => await (Invoke args).

(** The fetcher of the second [@example] of [createZodFetcher]:
    [(url) => fetch(url).then((res) => res.json())]. *)
Definition exampleFetcher : AnyFetcher :=
  fun args =>
    let url := hd VUndefined args in
    res <- await (Fetch [url]) ;;
    await (Json res).

(** A fetcher that hands the [Response] on as it is:
    [(...args) => fetch(...args)]. *)
Definition plainFetcher : AnyFetcher :=
  fun args =>
    res <- await (Fetch args) ;;
    ret (VResponse res).

(** ** The root layout *)

(** [ToBoolean], which decides a conditional expression (numbers are
    integers here, so there is no [NaN]). *)
Definition truthy (v : Value) : bool :=
  match v with
  | VUndefined | VNull => false
  | VBool b => b
  | VNum n => negb (Z.eqb n 0)
  | VStr s => negb (String.eqb s "")
  | VArr _ | VObj _ | VResponse _ => true
  end.

Record TemplateString : Type := mkTemplateString {
  template : string;
  default : string
}.

Record Metadata : Type := mkMetadata {
  metadata_title : TemplateString
}.

Record MetaTag : Type := mkMetaTag {
  name : string;
  content : string
}.

Section Layout.

(** [env.NEXT_PUBLIC_CONSUMER_MODE], read from [~/env]. *)
Variable NEXT_PUBLIC_CONSUMER_MODE : Value.

Definition title : string :=
  if truthy NEXT_PUBLIC_CONSUMER_MODE then "AI Assistant" else "AI Research Hub".

Definition metadata : Metadata :=
  {| metadata_title :=
       {| template := ("%s | " ++ title)%string;
          default := title |} |}.

(** The [<meta>] elements of the [<head>] that [RootLayout] returns. *)
Definition RootLayout_head : list MetaTag :=
  [ {| name := "viewport";
       content := "width=device-width, initial-scale=1, minimum-scale=1" |};
    {| name := "description";
       content := ("NEAR " ++ title)%string |} ].

End Layout.

(** Modelled from the spec: the rendering of [metadata.title], which is
    done by the framework and is not part of the sources.  A page title
    is put in the place of [%s] in [template]. *)
Fixpoint fillTemplate (tpl page : string) : string :=
  match tpl with
  | EmptyString => EmptyString
  | String "%" (String "s" rest) => (page ++ fillTemplate rest page)%string
  | String c rest => String c (fillTemplate rest page)
  end.

(** Modelled from the spec: the rendered title, which the framework
    computes from [metadata.title].  A page without a title of its own
    gets [default], a page with one gets the filled [template]. *)
Definition renderTitle (m : Metadata) (page : option string) : string :=
  match page with
  | None => default (metadata_title m)
  | Some p => fillTemplate (template (metadata_title m)) p
  end.

Fixpoint metaContent (wanted : string) (tags : list MetaTag) : option string :=
  match tags with
  | [] => None
  | tag :: more =>
      if String.eqb (name tag) wanted then Some (content tag)
      else metaContent wanted more
  end.

(** ** Sample data *)

Definition dquote : ascii := "034"%char.

Definition quoted (s : string) : string :=
  String dquote (s ++ String dquote "")%string.

(** [{"hello":"world"}], [{"hello":"world","more":1}], [{"hello":123}],
    [{"error":"not found"}]. *)
Definition helloWorldText : string :=
  ("{" ++ quoted "hello" ++ ":" ++ quoted "world" ++ "}")%string.
Definition helloMoreText : string :=
  ("{" ++ quoted "hello" ++ ":" ++ quoted "world" ++ "," ++ quoted "more" ++ ":1}")%string.
Definition helloNumberText : string :=
  ("{" ++ quoted "hello" ++ ":123}")%string.
Definition notFoundText : string :=
  ("{" ++ quoted "error" ++ ":" ++ quoted "not found" ++ "}")%string.

Definition helloWorld : Response := mkResponse true 200 helloWorldText.
Definition helloMore : Response := mkResponse true 200 helloMoreText.
Definition helloNumber : Response := mkResponse true 200 helloNumberText.
Definition notFound : Response := mkResponse false 404 notFoundText.
Definition unavailable : Response := mkResponse false 503 "Service Unavailable".
Definition garbled : Response := mkResponse true 200 "<html>".

(** A small network: six addresses answer, every other one is
    unreachable. *)
Definition sampleFetch (args : list Value) : Outcome Response :=
  match args with
  | VStr url :: _ =>
      if String.eqb url "https://example.com/hello" then Resolved helloWorld
      else if String.eqb url "https://example.com/more" then Resolved helloMore
      else if String.eqb url "https://example.com/number" then Resolved helloNumber
      else if String.eqb url "https://example.com/missing" then Resolved notFound
      else if String.eqb url "https://example.com/down" then Resolved unavailable
      else if String.eqb url "https://example.com/garbled" then Resolved garbled
      else Rejected (NativeError "TypeError" "fetch failed")
  | _ => Rejected (NativeError "TypeError" "Failed to parse URL")
  end.

(** The JSON reading of the four payloads above; anything else is not
    JSON. *)
Definition sampleJson (text : string) : Outcome Value :=
  if String.eqb text helloWorldText then
    Resolved (VObj [("hello", VStr "world")])
  else if String.eqb text helloMoreText then
    Resolved (VObj [("hello", VStr "world"); ("more", VNum 1)])
  else if String.eqb text helloNumberText then
    Resolved (VObj [("hello", VNum 123)])
  else if String.eqb text notFoundText then
    Resolved (VObj [("error", VStr "not found")])
  else Rejected (NativeError "SyntaxError" "Unexpected token").

(** An environment without memory: a body can be read any number of
    times.  The caller's fetcher answers like [exampleFetcher] would. *)
Definition sampleEnv : Env unit :=
  fun X op w =>
    match op in Effect X return X * unit with
    | Fetch args => (sampleFetch args, w)
    | Json r => (sampleJson (payload r), w)
    | Text r => (Resolved (payload r), w)
    | ConsoleError _ => (Resolved tt, w)
    | Invoke args =>
        (match sampleFetch args with
         | Resolved r => sampleJson (payload r)
         | Rejected e => Rejected e
         end, w)
    end.

(** An environment in which a body is a stream: the world counts the
    reads, and every read after the first is refused. *)
Definition streamEnv : Env nat :=
  fun X op reads =>
    match op in Effect X return X * nat with
    | Fetch args => (sampleFetch args, reads)
    | Json r =>
        (match reads with
         | O => sampleJson (payload r)
         | S _ => Rejected (NativeError "TypeError" "Body is unusable")
         end, S reads)
    | Text r =>
        (match reads with
         | O => Resolved (payload r)
         | S _ => Rejected (NativeError "TypeError" "Body is unusable")
         end, S reads)
    | ConsoleError _ => (Resolved tt, reads)
    | Invoke args => (Rejected (NativeError "TypeError" "fetcher is not a function"), reads)
    end.

(** A sample of [statusCodeToTRPCErrorCode]. *)
Definition sampleCode (status : Z) : string :=
  if Z.eqb status 400 then "BAD_REQUEST"
  else if Z.eqb status 401 then "UNAUTHORIZED"
  else if Z.eqb status 403 then "FORBIDDEN"
  else if Z.eqb status 404 then "NOT_FOUND"
  else if Z.eqb status 408 then "TIMEOUT"
  else if Z.eqb status 409 then "CONFLICT"
  else "INTERNAL_SERVER_ERROR".

Fixpoint field (key : string) (fields : list (string * Value)) : option Value :=
  match fields with
  | [] => None
  | (k, v) :: more => if String.eqb k key then Some v else field key more
  end.

Definition zodError : JsError := NativeError "ZodError" "Expected string".

(** [z.object({ hello: z.string() })]: its own [parse] keeps the declared
    field only, the parser returned by [passthrough()] keeps the whole
    object. *)
Definition helloParse (keepAll : bool) (data : Value) : Outcome Value :=
  match data with
  | VObj fields =>
      match field "hello" fields with
      | Some (VStr s) =>
          Resolved (if keepAll then data else VObj [("hello", VStr s)])
      | _ => Rejected zodError
      end
  | _ => Rejected zodError
  end.

Definition helloSchema : Schema Value :=
  {| passthrough := Some (fun _ => Resolved (mkParser (helloParse true)));
     own := Some (mkParser (helloParse false)) |}.

(** A schema of the second kind, with nothing but [parse]. *)
Definition helloStrict : Schema Value :=
  {| passthrough := None;
     own := Some (mkParser (helloParse false)) |}.

(** [z.any()]. *)
Definition anySchema : Schema Value :=
  {| passthrough := None;
     own := Some (mkParser (fun data => Resolved data)) |}.

(** ** Vocabulary of the statements *)

(** [sub] occurs in [s]. *)
Definition Includes (s sub : string) : Prop :=
  exists before after, s = (before ++ sub ++ after)%string.

(** The parser a schema offers: the one returned by [passthrough()] when
    the schema has that method, the schema itself when it has not. *)
Inductive Selected {TData} (schema : Schema TData) : Parser TData -> Prop :=
| selected_relaxed make relaxed :
    passthrough schema = Some make ->
    make tt = Resolved relaxed ->
    Selected schema relaxed
| selected_own strict :
    passthrough schema = None ->
    own schema = Some strict ->
    Selected schema strict.

(** The schema layer raises [e] on [data]: [passthrough()] throws it, or
    the offered parser rejects [data] with it. *)
Inductive SchemaRaises {TData} (schema : Schema TData) (data : Value)
          (e : JsError) : Prop :=
| raises_passthrough make :
    passthrough schema = Some make ->
    make tt = Rejected e ->
    SchemaRaises schema data e
| raises_parse parser :
    Selected schema parser ->
    parse parser data = Rejected e ->
    SchemaRaises schema data e.

(** The transport behind a wrapper. *)
Definition transportOf (code : Z -> string) (fetcher : option AnyFetcher)
  : AnyFetcher :=
  match fetcher with
  | Some given => given
  | None => defaultFetcher code
  end.

(** * Properties *)

(** The outcome of [p >>= f] is the outcome of [f] started where [p]
    stopped, unless [p] was rejected. *)
Lemma run_from_bind {W A B} (env : Env W) (p : Async A) (f : A -> Async B) :
  forall w tr,
    run_from env (abind p f) w tr =
    let r := run_from env p w tr in
    match outcome r with
    | Resolved a => run_from env (f a) (world r) (trace r)
    | Rejected e => mkRun (Rejected e) (world r) (trace r)
    end.
Proof.
  induction p as [a | e | X op k IH]; intros w tr; simpl; try reflexivity.
  destruct (env X op w) as [x w']. apply IH.
Qed.

Lemma run_from_try_catch {W A} (env : Env W) (p : Async A) (h : JsError -> Async A) :
  forall w tr,
    run_from env (try_catch p h) w tr =
    let r := run_from env p w tr in
    match outcome r with
    | Resolved a => r
    | Rejected e => run_from env (h e) (world r) (trace r)
    end.
Proof.
  induction p as [a | e | X op k IH]; intros w tr; simpl; try reflexivity.
  destruct (env X op w) as [x w']. apply IH.
Qed.

(** Running never forgets what was already recorded. *)
Lemma run_from_trace {W A} (env : Env W) (p : Async A) :
  forall w tr,
    trace (run_from env p w tr) = tr ++ trace (run_from env p w []) /\
    world (run_from env p w tr) = world (run_from env p w []) /\
    outcome (run_from env p w tr) = outcome (run_from env p w []).
Proof.
  induction p as [a | e | X op k IH]; intros w tr; simpl.
  - rewrite app_nil_r. auto.
  - rewrite app_nil_r. auto.
  - destruct (env X op w) as [x w'].
    destruct (IH x w' (tr ++ [event_of op])) as (H1 & H2 & H3).
    destruct (IH x w' [event_of op]) as (G1 & G2 & G3).
    rewrite H1, H2, H3, G1, G2, G3, app_assoc. auto.
Qed.


Lemma run_from_settle {W A} (env : Env W) (o : Outcome A) w tr :
  run_from env (settle o) w tr = mkRun o w tr.
Proof. destruct o; reflexivity. Qed.

Section Wrapper.

Variable code : Z -> string.
Variable W : Type.
Variable env : Env W.

(** A call through the wrapper is the transport call followed by a
    question to the schema, which performs nothing. *)
Lemma run_createZodFetcher TData (fetcher : option AnyFetcher)
      (schema : Schema TData) args w :
  run env (createZodFetcher code fetcher schema args) w =
  let t := run env (transportOf code fetcher args) w in
  match outcome t with
  | Resolved response =>
      mkRun
        match passthrough schema with
        | Some make =>
            match make tt with
            | Resolved relaxed => parse relaxed response
            | Rejected e => Rejected e
            end
        | None =>
            match own schema with
            | Some strict => parse strict response
            | None => Rejected (NativeError "TypeError" "schema.parse is not a function")
            end
        end (world t) (trace t)
  | Rejected e => mkRun (Rejected e) (world t) (trace t)
  end.
Proof.
  unfold run, createZodFetcher. cbn [bind Monad_Async].
  rewrite run_from_bind. cbn zeta.
  fold (transportOf code fetcher).
  destruct (outcome (run_from env (transportOf code fetcher args) w [])) as [response | e];
    [ | reflexivity ].
  destruct (passthrough schema) as [make | ].
  - destruct (make tt) as [relaxed | e]; cbn; [ apply run_from_settle | reflexivity ].
  - destruct (own schema) as [strict | ]; cbn; [ apply run_from_settle | reflexivity ].
Qed.

(** The three ways a call of [defaultFetcher] can go. *)
Lemma defaultFetcher_unreachable args w e w1 :
  env _ (Fetch args) w = (Rejected e, w1) ->
  run env (defaultFetcher code args) w = mkRun (Rejected e) w1 [EvFetch args].
Proof.
  intros Hfetch. unfold run, defaultFetcher. cbn. rewrite Hfetch. reflexivity.
Qed.

Lemma defaultFetcher_ok args w r w1 :
  env _ (Fetch args) w = (Resolved r, w1) ->
  ok r = true ->
  run env (defaultFetcher code args) w =
  mkRun (fst (env _ (Json r) w1)) (snd (env _ (Json r) w1))
        [EvFetch args; EvJson r].
Proof.
  intros Hfetch Hok. unfold run, defaultFetcher. cbn.
  rewrite Hfetch. cbn. rewrite Hok. cbn.
  destruct (env _ (Json r) w1) as [[body | e] w2]; reflexivity.
Qed.

Lemma defaultFetcher_not_ok args w r w1 :
  env _ (Fetch args) w = (Resolved r, w1) ->
  ok r = false ->
  run env (defaultFetcher code args) w =
  let failure :=
    Rejected (TRPCError (code (status r))
                ("Request failed with status: " ++ numberToString (status r))%string) in
  match env _ (Json r) w1 with
  | (Resolved body, w2) =>
      mkRun failure (snd (env _ (ConsoleError body) w2))
            [EvFetch args; EvJson r; EvConsoleError body]
  | (Rejected _, w2) =>
      match env _ (Text r) w2 with
      | (Resolved text, w3) =>
          mkRun failure (snd (env _ (ConsoleError (VStr text)) w3))
                [EvFetch args; EvJson r; EvText r; EvConsoleError (VStr text)]
      | (Rejected _, w3) =>
          mkRun failure w3 [EvFetch args; EvJson r; EvText r]
      end
  end.
Proof.
  intros Hfetch Hok. unfold run, defaultFetcher. cbn.
  rewrite Hfetch. cbn. rewrite Hok. cbn.
  destruct (env _ (Json r) w1) as [[body | e] w2]; cbn.
  - destruct (env _ (ConsoleError body) w2) as [[[] | e] w3]; reflexivity.
  - destruct (env _ (Text r) w2) as [[text | e'] w3]; cbn; [ | reflexivity ].
    destruct (env _ (ConsoleError (VStr text)) w3) as [[[] | e'] w4]; reflexivity.
Qed.

End Wrapper.
Arguments run_createZodFetcher code {W} env {TData} fetcher schema args w.
Arguments defaultFetcher_unreachable code {W} env args w {e w1} _.
Arguments defaultFetcher_ok code {W} env args w {r w1} _ _.
Arguments defaultFetcher_not_ok code {W} env args w {r w1} _ _.

Lemma append_empty_r (s : string) : (s ++ "")%string = s.
Proof. induction s as [ | c s IH]; simpl; [ | rewrite IH ]; reflexivity. Qed.

Lemma Includes_suffix (before sub : string) : Includes (before ++ sub) sub.
Proof. exists before, ""%string. now rewrite append_empty_r. Qed.

(** What the wrapper makes of a resolved transport call, by the parser
    the schema offers. *)
Lemma createZodFetcher_selected code {W} (env : Env W) {TData} fetcher
      (schema : Schema TData) parser args w response :
  outcome (run env (transportOf code fetcher args) w) = Resolved response ->
  Selected schema parser ->
  run env (createZodFetcher code fetcher schema args) w =
  mkRun (parse parser response)
        (world (run env (transportOf code fetcher args) w))
        (trace (run env (transportOf code fetcher args) w)).
Proof.
  intros Hresolved Hsel. rewrite run_createZodFetcher. cbn zeta.
  rewrite Hresolved.
  inversion Hsel as [make relaxed Hpass Hmake | strict Hpass Hown]; subst.
  - now rewrite Hpass, Hmake.
  - now rewrite Hpass, Hown.
Qed.

Lemma createZodFetcher_raises code {W} (env : Env W) {TData} fetcher
      (schema : Schema TData) args w response e :
  outcome (run env (transportOf code fetcher args) w) = Resolved response ->
  SchemaRaises schema response e ->
  run env (createZodFetcher code fetcher schema args) w =
  mkRun (Rejected e)
        (world (run env (transportOf code fetcher args) w))
        (trace (run env (transportOf code fetcher args) w)).
Proof.
  intros Hresolved [make Hpass Hmake | parser Hsel Hparse].
  - rewrite run_createZodFetcher. cbn zeta. now rewrite Hresolved, Hpass, Hmake.
  - erewrite createZodFetcher_selected by eassumption.
    now rewrite Hparse.
Qed.

(** ** The wrapper on the default transport *)

(** C1 (as amended).  Through a wrapper built without a fetcher, that is
    on [defaultFetcher], every [fetch] that answers with a response whose
    [ok] flag is off makes the call fail with a [TRPCError]: its code is
    [statusCodeToTRPCErrorCode] of the status, its message includes the
    status in decimal.  The environment is arbitrary, so this holds
    whatever [json()], [text()] and [console.error] do. *)
Theorem default_transport_request_failed :
  forall (code : Z -> string) W (env : Env W) TData (schema : Schema TData)
         args w r w1,
    env _ (Fetch args) w = (Resolved r, w1) ->
    ok r = false ->
    exists message,
      outcome (run env (createZodFetcher code None schema args) w)
      = Rejected (TRPCError (code (status r)) message)
      /\ Includes message (numberToString (status r)).
Proof.
  intros code W env TData schema args w r w1 Hfetch Hok.
  exists ("Request failed with status: " ++ numberToString (status r))%string.
  split; [ | apply Includes_suffix ].
  rewrite run_createZodFetcher. cbn [transportOf].
  rewrite (defaultFetcher_not_ok code env args w Hfetch Hok). cbn zeta.
  destruct (env _ (Json r) w1) as [[body | e] w2]; [ reflexivity | ].
  destruct (env _ (Text r) w2) as [[text | e'] w3]; reflexivity.
Qed.

(** C2.  When the transport call resolves with a body for which the
    parser offered by the schema returns [v], the call through the wrapper
    resolves with [v]; on the default transport this is the case of a
    response with the [ok] flag on whose [json()] gives the body, and the
    call performs the [fetch] and the [json()] and nothing else. *)
Theorem parsed_value_returned :
  forall (code : Z -> string) W (env : Env W) TData (schema : Schema TData)
         parser args w body v,
    Selected schema parser ->
    parse parser body = Resolved v ->
    (forall fetcher,
        outcome (run env (transportOf code fetcher args) w) = Resolved body ->
        outcome (run env (createZodFetcher code fetcher schema args) w)
        = Resolved v)
    /\ (forall r w1 w2,
           env _ (Fetch args) w = (Resolved r, w1) ->
           ok r = true ->
           env _ (Json r) w1 = (Resolved body, w2) ->
           run env (createZodFetcher code None schema args) w
           = mkRun (Resolved v) w2 [EvFetch args; EvJson r]).
Proof.
  intros code W env TData schema parser args w body v Hsel Hparse. split.
  - intros fetcher Hresolved.
    erewrite createZodFetcher_selected by eassumption.
    exact Hparse.
  - intros r w1 w2 Hfetch Hok Hjson.
    assert (Hrun : run env (defaultFetcher code args) w
                   = mkRun (Resolved body) w2 [EvFetch args; EvJson r]).
    { rewrite (defaultFetcher_ok code env args w Hfetch Hok), Hjson. reflexivity. }
    erewrite (createZodFetcher_selected code env None) with (response := body);
      [ | cbn [transportOf]; rewrite Hrun; reflexivity | eassumption ].
    cbn [transportOf]. rewrite Hrun, Hparse. reflexivity.
Qed.

(** C3.  The parser is chosen by what the schema has.  With a
    [passthrough] method the body goes to the parser that method returns,
    whatever the schema's own [parse] would say; without it the body goes
    to the schema's own [parse]. *)
Theorem parser_selected_by_capability :
  forall (code : Z -> string) W (env : Env W) TData (schema : Schema TData)
         fetcher args w body,
    outcome (run env (transportOf code fetcher args) w) = Resolved body ->
    (forall make relaxed,
        passthrough schema = Some make ->
        make tt = Resolved relaxed ->
        outcome (run env (createZodFetcher code fetcher schema args) w)
        = parse relaxed body)
    /\ (forall strict,
           passthrough schema = None ->
           own schema = Some strict ->
           outcome (run env (createZodFetcher code fetcher schema args) w)
           = parse strict body).
Proof.
  intros code W env TData schema fetcher args w body Hresolved.
  split; [ intros make relaxed Hpass Hmake | intros strict Hpass Hown ];
    rewrite run_createZodFetcher; cbn zeta; rewrite Hresolved, Hpass.
  - rewrite Hmake. reflexivity.
  - rewrite Hown. reflexivity.
Qed.

(** C4.  When the transport call resolves with a body on which the schema
    layer raises [e], the call through the wrapper is rejected with [e]
    itself, having performed what the transport call performed and
    nothing more; it does not resolve. *)
Theorem validation_error_propagates :
  forall (code : Z -> string) W (env : Env W) TData (schema : Schema TData)
         fetcher args w body e,
    outcome (run env (transportOf code fetcher args) w) = Resolved body ->
    SchemaRaises schema body e ->
    let call := run env (createZodFetcher code fetcher schema args) w in
    outcome call = Rejected e
    /\ (forall v, outcome call <> Resolved v)
    /\ trace call = trace (run env (transportOf code fetcher args) w).
Proof.
  intros code W env TData schema fetcher args w body e Hresolved Hraises call.
  subst call. rewrite (createZodFetcher_raises code env fetcher schema args w _ _ Hresolved Hraises).
  cbn. repeat split. intros v Hv. discriminate Hv.
Qed.

(** C5.  On a response whose [ok] flag is off, [defaultFetcher] first
    calls [json()]; only if that is rejected it calls [text()]; a body
    obtained either way is handed to [console.error].  Whatever these
    three do, also when each of them fails, the call ends rejected with
    the [TRPCError] built from the status. *)
Theorem diagnostic_read_best_effort :
  forall (code : Z -> string) W (env : Env W) args w r w1,
    env _ (Fetch args) w = (Resolved r, w1) ->
    ok r = false ->
    let call := run env (defaultFetcher code args) w in
    let json := env _ (Json r) w1 in
    let text := env _ (Text r) (snd json) in
    outcome call
    = Rejected (TRPCError (code (status r))
                  ("Request failed with status: " ++ numberToString (status r))%string)
    /\ trace call
       = [EvFetch args; EvJson r] ++
         match fst json with
         | Resolved body => [EvConsoleError body]
         | Rejected _ =>
             EvText r ::
             match fst text with
             | Resolved body => [EvConsoleError (VStr body)]
             | Rejected _ => []
             end
         end.
Proof.
  intros code W env args w r w1 Hfetch Hok call json text. subst call json text.
  rewrite (defaultFetcher_not_ok code env args w Hfetch Hok). cbn zeta.
  destruct (env _ (Json r) w1) as [[body | e] w2]; cbn [fst snd].
  - split; reflexivity.
  - destruct (env _ (Text r) w2) as [[body | e'] w3]; split; reflexivity.
Qed.

(** ** The wrapper and its transport *)

(** The wrapper performs what its transport performs. *)
Lemma createZodFetcher_effects code {W} (env : Env W) {TData} fetcher
      (schema : Schema TData) args w :
  trace (run env (createZodFetcher code fetcher schema args) w)
  = trace (run env (transportOf code fetcher args) w)
  /\ world (run env (createZodFetcher code fetcher schema args) w)
     = world (run env (transportOf code fetcher args) w).
Proof.
  rewrite run_createZodFetcher. cbn zeta.
  destruct (outcome (run env (transportOf code fetcher args) w)); split; reflexivity.
Qed.

Lemma defaultFetcher_fetches_once code {W} (env : Env W) args w :
  filter isFetch (trace (run env (defaultFetcher code args) w)) = [EvFetch args].
Proof.
  destruct (env _ (Fetch args) w) as [[r | e] w1] eqn:Hfetch.
  - destruct (ok r) eqn:Hok.
    + rewrite (defaultFetcher_ok code env args w Hfetch Hok). reflexivity.
    + rewrite (defaultFetcher_not_ok code env args w Hfetch Hok). cbn zeta.
      destruct (env _ (Json r) w1) as [[body | e] w2]; [ reflexivity | ].
      destruct (env _ (Text r) w2) as [[text | e'] w3]; reflexivity.
  - rewrite (defaultFetcher_unreachable code env args w Hfetch). reflexivity.
Qed.

Lemma callerFetcher_invoked_once code {W} (env : Env W) {TData}
      (schema : Schema TData) args w :
  trace (run env (createZodFetcher code (Some callerFetcher) schema args) w)
  = [EvInvoke args].
Proof.
  rewrite (proj1 (createZodFetcher_effects code env (Some callerFetcher) schema args w)).
  cbn [transportOf]. unfold run, callerFetcher, await. cbn.
  destruct (env _ (Invoke args) w) as [[value | e] w1]; reflexivity.
Qed.

(** C6.  [createZodFetcher] takes the fetcher once and returns the
    function that is called afterwards.  Without a fetcher the returned
    function is the one built on [defaultFetcher]; every call through one
    returned function, whatever its schema and arguments, performs exactly
    what a call of that one fetcher on those arguments performs; and two
    calls in a row through one returned function reach the same fetcher,
    first with the first arguments, then, if the first call resolved, with
    the second. *)
Theorem factory_binds_one_transport :
  forall (code : Z -> string),
    @createZodFetcher code None = @createZodFetcher code (Some (defaultFetcher code))
    /\ (forall (fetcher : AnyFetcher),
          let fetchWithZod : ZodFetcher := @createZodFetcher code (Some fetcher) in
          forall W (env : Env W) TData (schema : Schema TData) args w,
            trace (run env (fetchWithZod TData schema args) w)
            = trace (run env (fetcher args) w)
            /\ world (run env (fetchWithZod TData schema args) w)
               = world (run env (fetcher args) w))
    /\ (let fetchWithZod : ZodFetcher := @createZodFetcher code (Some callerFetcher) in
        forall W (env : Env W) A (first : Schema A) B (second : Schema B)
               args1 args2 w,
          trace (run env (_ <- fetchWithZod A first args1 ;;
                          fetchWithZod B second args2) w)
          = EvInvoke args1 ::
            match outcome (run env (fetchWithZod A first args1) w) with
            | Resolved _ => [EvInvoke args2]
            | Rejected _ => []
            end).
Proof.
  intros code. split; [ reflexivity | ]. split.
  - intros fetcher fetchWithZod W env TData schema args w. subst fetchWithZod.
    apply (createZodFetcher_effects code env (Some fetcher) schema args w).
  - intros fetchWithZod W env A first B second args1 args2 w. subst fetchWithZod.
    unfold run at 1. cbn [bind Monad_Async]. rewrite run_from_bind. cbn zeta.
    fold (run env (createZodFetcher code (Some callerFetcher) first args1) w).
    pose proof (callerFetcher_invoked_once code env first args1 w) as Hfirst.
    destruct (run env (createZodFetcher code (Some callerFetcher) first args1) w)
      as [[a | e] w1 tr1]; cbn [outcome world trace] in *; subst tr1;
      [ | reflexivity ].
    destruct (run_from_trace env
                (createZodFetcher code (Some callerFetcher) second args2)
                w1 [EvInvoke args1]) as (Htrace & _ & _).
    rewrite Htrace.
    fold (run env (createZodFetcher code (Some callerFetcher) second args2) w1).
    rewrite callerFetcher_invoked_once. reflexivity.
Qed.

(** C7.  One call through the wrapper is one call of the configured
    fetcher, on the caller's arguments as they came: with a fetcher of the
    caller the operations performed are that single call; with the default
    one, a single [fetch] on those arguments.  This holds in every
    environment, so also when the call or the validation fails: nothing is
    tried again. *)
Theorem one_transport_call :
  forall (code : Z -> string) W (env : Env W) TData (schema : Schema TData)
         args w,
    trace (run env (createZodFetcher code (Some callerFetcher) schema args) w)
    = [EvInvoke args]
    /\ filter isFetch
         (trace (run env (createZodFetcher code None schema args) w))
       = [EvFetch args].
Proof.
  intros code W env TData schema args w. split.
  - apply callerFetcher_invoked_once.
  - rewrite (proj1 (createZodFetcher_effects code env None schema args w)).
    apply defaultFetcher_fetches_once.
Qed.

(** C9.  The function returned by [createZodFetcher] looks at nothing in
    what its fetcher resolves with: the value, be it a response with any
    status, goes to the parser the schema offers, and the call settles as
    that parser says.  Nor does it build a [TRPCError]: one that comes
    out of a call was thrown by the fetcher or raised by the schema
    layer. *)
Theorem wrapper_inspects_no_status :
  forall (code : Z -> string) W (env : Env W) TData (schema : Schema TData)
         (fetcher : AnyFetcher) args w,
    let direct := run env (fetcher args) w in
    let call := run env (createZodFetcher code (Some fetcher) schema args) w in
    (forall value parser,
        outcome direct = Resolved value ->
        Selected schema parser ->
        call = mkRun (parse parser value) (world direct) (trace direct))
    /\ (forall c m,
           outcome call = Rejected (TRPCError c m) ->
           outcome direct = Rejected (TRPCError c m)
           \/ exists value,
               outcome direct = Resolved value
               /\ SchemaRaises schema value (TRPCError c m)).
Proof.
  intros code W env TData schema fetcher args w direct call. split.
  - intros value parser Hresolved Hsel.
    apply (createZodFetcher_selected code env (Some fetcher) schema _ args w _ Hresolved Hsel).
  - intros c m. subst call. rewrite run_createZodFetcher. cbn [transportOf]. cbn zeta.
    fold direct. destruct (outcome direct) as [value | e]; cbn [outcome];
      [ | intros Hcall; left; injection Hcall as ->; reflexivity ].
    intros Hcall. right. exists value. split; [ reflexivity | ].
    destruct (passthrough schema) as [make | ] eqn:Hpass.
    + destruct (make tt) as [relaxed | e] eqn:Hmake.
      * apply raises_parse with (parser := relaxed); [ | exact Hcall ].
        eapply selected_relaxed; eassumption.
      * injection Hcall as ->. eapply raises_passthrough; eassumption.
    + destruct (own schema) as [strict | ] eqn:Hown; [ | discriminate Hcall ].
      apply raises_parse with (parser := strict); [ | exact Hcall ].
      apply selected_own; assumption.
Qed.

(** C10.  On a response with the [ok] flag on whose [json()] is rejected
    with [e], [defaultFetcher] has no handler around the read: the call is
    rejected with [e] itself, and so is the call through the wrapper,
    whatever the schema, which is never asked. *)
Theorem unreadable_success_body_rejects_raw :
  forall (code : Z -> string) W (env : Env W) args w r w1 e w2,
    env _ (Fetch args) w = (Resolved r, w1) ->
    ok r = true ->
    env _ (Json r) w1 = (Rejected e, w2) ->
    run env (defaultFetcher code args) w
    = mkRun (Rejected e) w2 [EvFetch args; EvJson r]
    /\ forall TData (schema : Schema TData),
        outcome (run env (createZodFetcher code None schema args) w)
        = Rejected e.
Proof.
  intros code W env args w r w1 e w2 Hfetch Hok Hjson.
  assert (Hrun : run env (defaultFetcher code args) w
                 = mkRun (Rejected e) w2 [EvFetch args; EvJson r]).
  { rewrite (defaultFetcher_ok code env args w Hfetch Hok), Hjson. reflexivity. }
  split; [ exact Hrun | ].
  intros TData schema. rewrite run_createZodFetcher. cbn [transportOf]. cbn zeta.
  rewrite Hrun. reflexivity.
Qed.

(** ** The document title *)

(** C8.  The product title is "AI Research Hub" when the consumer-mode
    flag is unset or off and "AI Assistant" when it is on; whatever the
    flag, a page without a title is rendered with the product title alone,
    a page titled [page] with [page], " | " and the product title, and the
    meta description is "NEAR " followed by the product title. *)
Theorem document_title :
  title VUndefined = "AI Research Hub"
  /\ title (VBool false) = "AI Research Hub"
  /\ title (VBool true) = "AI Assistant"
  /\ forall mode,
      (title mode = "AI Research Hub" \/ title mode = "AI Assistant")
      /\ renderTitle (metadata mode) None = title mode
      /\ (forall page,
             renderTitle (metadata mode) (Some page)
             = (page ++ " | " ++ title mode)%string)
      /\ metaContent "description" (RootLayout_head mode)
         = Some ("NEAR " ++ title mode)%string.
Proof.
  repeat (split; [ reflexivity | ]).
  intros mode. unfold renderTitle, metadata, RootLayout_head, title.
  destruct (truthy mode); cbn.
  - split; [ right; reflexivity | ]. repeat split.
  - split; [ left; reflexivity | ]. repeat split.
Qed.

(** * The properties at sample inputs *)

Lemma default_transport_request_failed_witness :
  let args := [VStr "https://example.com/missing"] in
  sampleEnv _ (Fetch args) tt = (Resolved notFound, tt)
  /\ ok notFound = false
  /\ exists message,
      outcome (run sampleEnv (createZodFetcher sampleCode None helloSchema args) tt)
      = Rejected (TRPCError (sampleCode (status notFound)) message)
      /\ Includes message (numberToString (status notFound)).
Proof.
  intros args.
  split; [ reflexivity | ]. split; [ reflexivity | ].
  apply (default_transport_request_failed
           sampleCode unit sampleEnv Value helloSchema args tt notFound tt);
    reflexivity.
Defined.

(** C1 as it is written fails: the fetcher of the module's own
    [@example] does not look at the status, so a 404 answered to it ends
    in a resolved call. *)
Lemma request_failed_counterexample :
  let args := [VStr "https://example.com/missing"] in
  let call :=
    run sampleEnv (createZodFetcher sampleCode (Some exampleFetcher) anySchema args) tt in
  sampleEnv _ (Fetch args) tt = (Resolved notFound, tt)
  /\ ok notFound = false
  /\ status notFound = 404%Z
  /\ outcome call = Resolved (VObj [("error", VStr "not found")])
  /\ ~ (exists message,
          outcome call = Rejected (TRPCError (sampleCode (status notFound)) message)
          /\ Includes message (numberToString (status notFound))).
Proof.
  intros args call. repeat (split; [ reflexivity | ]).
  intros (message & Hcall & _). vm_compute in Hcall. discriminate Hcall.
Qed.

Lemma parsed_value_returned_witness :
  let args := [VStr "https://example.com/hello"] in
  let body := VObj [("hello", VStr "world")] in
  let parser := mkParser (helloParse true) in
  Selected helloSchema parser
  /\ parse parser body = Resolved body
  /\ outcome (run sampleEnv (exampleFetcher args) tt) = Resolved body
  /\ outcome (run sampleEnv
                (createZodFetcher sampleCode (Some exampleFetcher) helloSchema args) tt)
     = Resolved body
  /\ run sampleEnv (createZodFetcher sampleCode None helloSchema args) tt
     = mkRun (Resolved body) tt [EvFetch args; EvJson helloWorld].
Proof.
  intros args body parser.
  assert (Hsel : Selected helloSchema parser).
  { eapply selected_relaxed; reflexivity. }
  destruct (parsed_value_returned
              sampleCode unit sampleEnv Value helloSchema parser args tt body body
              Hsel eq_refl) as [Hgiven Hdefault].
  split; [ exact Hsel | ]. split; [ reflexivity | ]. split; [ reflexivity | ].
  split.
  - apply (Hgiven (Some exampleFetcher)). reflexivity.
  - apply (Hdefault helloWorld tt tt); reflexivity.
Defined.

Lemma parser_selected_by_capability_witness :
  let args := [VStr "https://example.com/more"] in
  let body := VObj [("hello", VStr "world"); ("more", VNum 1)] in
  outcome (run sampleEnv (transportOf sampleCode None args) tt) = Resolved body
  /\ outcome (run sampleEnv (createZodFetcher sampleCode None helloSchema args) tt)
     = Resolved body
  /\ outcome (run sampleEnv (createZodFetcher sampleCode None helloStrict args) tt)
     = Resolved (VObj [("hello", VStr "world")]).
Proof.
  intros args body.
  split; [ reflexivity | ]. split.
  - apply (proj1 (parser_selected_by_capability
                    sampleCode unit sampleEnv Value helloSchema None args tt body eq_refl)
                 (fun _ => Resolved (mkParser (helloParse true)))
                 (mkParser (helloParse true)));
      reflexivity.
  - apply (proj2 (parser_selected_by_capability
                    sampleCode unit sampleEnv Value helloStrict None args tt body eq_refl)
                 (mkParser (helloParse false)));
      reflexivity.
Defined.

Lemma validation_error_propagates_witness :
  let args := [VStr "https://example.com/number"] in
  let body := VObj [("hello", VNum 123)] in
  let call := run sampleEnv (createZodFetcher sampleCode None helloSchema args) tt in
  outcome (run sampleEnv (transportOf sampleCode None args) tt) = Resolved body
  /\ SchemaRaises helloSchema body zodError
  /\ outcome call = Rejected zodError
  /\ (forall v, outcome call <> Resolved v)
  /\ trace call = trace (run sampleEnv (transportOf sampleCode None args) tt).
Proof.
  intros args body call.
  assert (Hraises : SchemaRaises helloSchema body zodError).
  { apply raises_parse with (parser := mkParser (helloParse true)).
    - eapply selected_relaxed; reflexivity.
    - reflexivity. }
  split; [ reflexivity | ]. split; [ exact Hraises | ].
  apply (validation_error_propagates
           sampleCode unit sampleEnv Value helloSchema None args tt body zodError
           eq_refl Hraises).
Defined.

Lemma diagnostic_read_best_effort_witness :
  let args := [VStr "https://example.com/down"] in
  let call := run streamEnv (defaultFetcher sampleCode args) 0 in
  streamEnv _ (Fetch args) 0 = (Resolved unavailable, 0)
  /\ ok unavailable = false
  /\ outcome call
     = Rejected (TRPCError "INTERNAL_SERVER_ERROR" "Request failed with status: 503")
  /\ trace call = [EvFetch args; EvJson unavailable; EvText unavailable].
Proof.
  intros args call.
  split; [ reflexivity | ]. split; [ reflexivity | ].
  apply (diagnostic_read_best_effort
           sampleCode nat streamEnv args 0 unavailable 0 eq_refl eq_refl).
Defined.

Lemma wrapper_inspects_no_status_witness :
  let args := [VStr "https://example.com/missing"] in
  let call :=
    run sampleEnv (createZodFetcher sampleCode (Some plainFetcher) anySchema args) tt in
  let guarded :=
    run sampleEnv
        (createZodFetcher sampleCode (Some (defaultFetcher sampleCode)) anySchema args) tt in
  let failure := TRPCError "NOT_FOUND" "Request failed with status: 404" in
  outcome (run sampleEnv (plainFetcher args) tt) = Resolved (VResponse notFound)
  /\ ok notFound = false
  /\ call = mkRun (Resolved (VResponse notFound)) tt [EvFetch args]
  /\ outcome guarded = Rejected failure
  /\ (outcome (run sampleEnv (defaultFetcher sampleCode args) tt) = Rejected failure
      \/ exists value,
          outcome (run sampleEnv (defaultFetcher sampleCode args) tt) = Resolved value
          /\ SchemaRaises anySchema value failure).
Proof.
  intros args call guarded failure.
  split; [ reflexivity | ]. split; [ reflexivity | ]. split.
  - apply (proj1 (wrapper_inspects_no_status
                    sampleCode unit sampleEnv Value anySchema plainFetcher args tt)
                 (VResponse notFound) (mkParser (fun data => Resolved data))).
    + reflexivity.
    + apply selected_own; reflexivity.
  - split; [ reflexivity | ].
    apply (proj2 (wrapper_inspects_no_status
                    sampleCode unit sampleEnv Value anySchema
                    (defaultFetcher sampleCode) args tt)
                 "NOT_FOUND" "Request failed with status: 404").
    reflexivity.
Defined.

Lemma unreadable_success_body_rejects_raw_witness :
  let args := [VStr "https://example.com/garbled"] in
  let syntaxError := NativeError "SyntaxError" "Unexpected token" in
  sampleEnv _ (Fetch args) tt = (Resolved garbled, tt)
  /\ ok garbled = true
  /\ sampleEnv _ (Json garbled) tt = (Rejected syntaxError, tt)
  /\ run sampleEnv (defaultFetcher sampleCode args) tt
     = mkRun (Rejected syntaxError) tt [EvFetch args; EvJson garbled]
  /\ forall TData (schema : Schema TData),
      outcome (run sampleEnv (createZodFetcher sampleCode None schema args) tt)
      = Rejected syntaxError.
Proof.
  intros args syntaxError.
  split; [ reflexivity | ]. split; [ reflexivity | ]. split; [ reflexivity | ].
  apply (unreadable_success_body_rejects_raw
           sampleCode unit sampleEnv args tt garbled tt syntaxError tt);
    reflexivity.
Defined.

(** The examples of the specification. *)

Example status_404 :
  outcome (run sampleEnv
             (createZodFetcher sampleCode None helloSchema
                [VStr "https://example.com/missing"]) tt)
  = Rejected (TRPCError "NOT_FOUND" "Request failed with status: 404").
Proof. reflexivity. Qed.

Example status_200 :
  outcome (run sampleEnv
             (createZodFetcher sampleCode None helloSchema
                [VStr "https://example.com/hello"]) tt)
  = Resolved (VObj [("hello", VStr "world")]).
Proof. reflexivity. Qed.

Example status_200_mismatch :
  outcome (run sampleEnv
             (createZodFetcher sampleCode None helloSchema
                [VStr "https://example.com/number"]) tt)
  = Rejected zodError.
Proof. reflexivity. Qed.

Example settings_title :
  renderTitle (metadata VUndefined) None = "AI Research Hub"
  /\ renderTitle (metadata VUndefined) (Some "Settings") = "Settings | AI Research Hub".
Proof. split; reflexivity. Qed.

(** * Further properties of [zod-fetch.ts] and of the layout *)

(** ** What comes out of a call *)

(** X1.  A transport call that is rejected with [e] makes the call
    through the wrapper rejected with [e], whatever the schema, after what
    the transport performed and nothing more; on the default transport a
    [fetch] that is itself rejected ends the call at once, with no body
    read and nothing written to the console. *)
Theorem transport_rejection_propagates :
  forall (code : Z -> string) W (env : Env W) TData (schema : Schema TData)
         args w e,
    (forall fetcher,
        outcome (run env (transportOf code fetcher args) w) = Rejected e ->
        run env (createZodFetcher code fetcher schema args) w
        = mkRun (Rejected e)
                (world (run env (transportOf code fetcher args) w))
                (trace (run env (transportOf code fetcher args) w)))
    /\ (forall w1,
           env _ (Fetch args) w = (Rejected e, w1) ->
           run env (createZodFetcher code None schema args) w
           = mkRun (Rejected e) w1 [EvFetch args]).
Proof.
  intros code W env TData schema args w e. split.
  - intros fetcher Hrejected. rewrite run_createZodFetcher. cbn zeta.
    rewrite Hrejected. reflexivity.
  - intros w1 Hfetch. rewrite run_createZodFetcher. cbn [transportOf]. cbn zeta.
    rewrite (defaultFetcher_unreachable code env args w Hfetch). reflexivity.
Qed.

(** X2.  A call through the wrapper resolves only with a value that the
    parser offered by the schema returned for what the transport resolved
    with: nothing reaches the caller unvalidated. *)
Theorem resolved_value_is_validated :
  forall (code : Z -> string) W (env : Env W) TData (schema : Schema TData)
         fetcher args w v,
    outcome (run env (createZodFetcher code fetcher schema args) w) = Resolved v ->
    exists body parser,
      outcome (run env (transportOf code fetcher args) w) = Resolved body
      /\ Selected schema parser
      /\ parse parser body = Resolved v.
Proof.
  intros code W env TData schema fetcher args w v.
  rewrite run_createZodFetcher. cbn zeta.
  destruct (outcome (run env (transportOf code fetcher args) w)) as [body | e];
    cbn [outcome]; [ | discriminate ].
  intros Hcall. exists body.
  destruct (passthrough schema) as [make | ] eqn:Hpass.
  - destruct (make tt) as [relaxed | e] eqn:Hmake; [ | discriminate Hcall ].
    exists relaxed. repeat split; [ | exact Hcall ].
    eapply selected_relaxed; eassumption.
  - destruct (own schema) as [strict | ] eqn:Hown; [ | discriminate Hcall ].
    exists strict. repeat split; [ | exact Hcall ].
    apply selected_own; assumption.
Qed.

(** X3.  [defaultFetcher] resolves with [v] exactly when [fetch] resolved
    with a response whose [ok] flag is on and whose [json()] resolved with
    [v]. *)
Theorem defaultFetcher_resolves_iff :
  forall (code : Z -> string) W (env : Env W) args w v,
    outcome (run env (defaultFetcher code args) w) = Resolved v
    <-> exists r w1,
        env _ (Fetch args) w = (Resolved r, w1)
        /\ ok r = true
        /\ fst (env _ (Json r) w1) = Resolved v.
Proof.
  intros code W env args w v.
  destruct (env _ (Fetch args) w) as [[r | e] w1] eqn:Hfetch.
  - destruct (ok r) eqn:Hok.
    + rewrite (defaultFetcher_ok code env args w Hfetch Hok). cbn [outcome]. split.
      * intros Hjson. exists r, w1. auto.
      * intros (r' & w1' & Heq & _ & Hjson). injection Heq as <- <-. exact Hjson.
    + rewrite (defaultFetcher_not_ok code env args w Hfetch Hok). cbn zeta. split.
      * destruct (env _ (Json r) w1) as [[body | e] w2]; [ discriminate | ].
        destruct (env _ (Text r) w2) as [[text | e'] w3]; discriminate.
      * intros (r' & w1' & Heq & Hok' & _). injection Heq as <- <-. congruence.
  - rewrite (defaultFetcher_unreachable code env args w Hfetch). cbn [outcome]. split.
    + discriminate.
    + intros (r' & w1' & Heq & _). discriminate Heq.
Qed.

(** X4.  Through a wrapper on the default transport, with a schema that
    has one of its two methods, a rejected call has one of four origins:
    [fetch] was rejected with that error; the response had its [ok] flag
    off and the error is the [TRPCError] built from the status; the
    response had its [ok] flag on and [json()] was rejected with that
    error; or the schema layer raised it on the body read. *)
Theorem default_failure_origins :
  forall (code : Z -> string) W (env : Env W) TData (schema : Schema TData)
         args w e,
    passthrough schema <> None \/ own schema <> None ->
    outcome (run env (createZodFetcher code None schema args) w) = Rejected e ->
    (exists w1, env _ (Fetch args) w = (Rejected e, w1))
    \/ (exists r w1,
           env _ (Fetch args) w = (Resolved r, w1)
           /\ ok r = false
           /\ e = TRPCError (code (status r))
                    ("Request failed with status: " ++ numberToString (status r))%string)
    \/ (exists r w1,
           env _ (Fetch args) w = (Resolved r, w1)
           /\ ok r = true
           /\ fst (env _ (Json r) w1) = Rejected e)
    \/ (exists r w1 body,
           env _ (Fetch args) w = (Resolved r, w1)
           /\ ok r = true
           /\ fst (env _ (Json r) w1) = Resolved body
           /\ SchemaRaises schema body e).
Proof.
  intros code W env TData schema args w e Hschema.
  rewrite run_createZodFetcher. cbn [transportOf]. cbn zeta.
  destruct (env _ (Fetch args) w) as [[r | e0] w1] eqn:Hfetch.
  - destruct (ok r) eqn:Hok.
    + rewrite (defaultFetcher_ok code env args w Hfetch Hok). cbn [outcome world trace].
      destruct (fst (env _ (Json r) w1)) as [body | e0] eqn:Hjson; cbn [outcome].
      * intros Hcall. right. right. right. exists r, w1, body.
        repeat split; try assumption.
        destruct (passthrough schema) as [make | ] eqn:Hpass.
        -- destruct (make tt) as [relaxed | e1] eqn:Hmake.
           ++ apply raises_parse with (parser := relaxed); [ | exact Hcall ].
              eapply selected_relaxed; eassumption.
           ++ injection Hcall as ->. eapply raises_passthrough; eassumption.
        -- destruct (own schema) as [strict | ] eqn:Hown.
           ++ apply raises_parse with (parser := strict); [ | exact Hcall ].
              apply selected_own; assumption.
           ++ destruct Hschema as [Hno | Hno]; contradiction Hno; reflexivity.
      * intros Hcall. injection Hcall as ->. right. right. left.
        exists r, w1. auto.
    + rewrite (defaultFetcher_not_ok code env args w Hfetch Hok). cbn zeta.
      intros Hcall. right. left. exists r, w1. repeat split; try assumption.
      destruct (env _ (Json r) w1) as [[body | e0] w2]; cbn in Hcall.
      * injection Hcall as <-. reflexivity.
      * destruct (env _ (Text r) w2) as [[text | e1] w3]; cbn in Hcall;
          injection Hcall as <-; reflexivity.
  - rewrite (defaultFetcher_unreachable code env args w Hfetch). cbn [outcome].
    intros Hcall. injection Hcall as ->. left. exists w1. reflexivity.
Qed.

(** ** What [defaultFetcher] performs *)

(** X5.  [console.error] is reached only for a response whose [ok] flag
    is off, and what it is given is the body that was read: the value of
    [json()], or, when [json()] was rejected, the text of [text()]. *)
Theorem console_error_only_on_failure :
  forall (code : Z -> string) W (env : Env W) args w v,
    In (EvConsoleError v) (trace (run env (defaultFetcher code args) w)) ->
    exists r w1,
      env _ (Fetch args) w = (Resolved r, w1)
      /\ ok r = false
      /\ (fst (env _ (Json r) w1) = Resolved v
          \/ exists e text,
              fst (env _ (Json r) w1) = Rejected e
              /\ fst (env _ (Text r) (snd (env _ (Json r) w1))) = Resolved text
              /\ v = VStr text).
Proof.
  intros code W env args w v.
  destruct (env _ (Fetch args) w) as [[r | e] w1] eqn:Hfetch.
  - destruct (ok r) eqn:Hok.
    + rewrite (defaultFetcher_ok code env args w Hfetch Hok). cbn [trace].
      intros [H | [H | []]]; discriminate H.
    + rewrite (defaultFetcher_not_ok code env args w Hfetch Hok). cbn zeta.
      intros Hin. exists r, w1. split; [ reflexivity | ]. split; [ exact Hok | ].
      destruct (env _ (Json r) w1) as [[body | e] w2]; cbn [fst snd trace] in *.
      * destruct Hin as [H | [H | [H | []]]]; try discriminate H.
        injection H as ->. left. reflexivity.
      * right. exists e.
        destruct (env _ (Text r) w2) as [[text | e'] w3]; cbn [fst trace] in *.
        -- destruct Hin as [H | [H | [H | [H | []]]]]; try discriminate H.
           injection H as <-. exists text. split; [ reflexivity | ]. split; reflexivity.
        -- destruct Hin as [H | [H | [H | []]]]; discriminate H.
  - rewrite (defaultFetcher_unreachable code env args w Hfetch). cbn [trace].
    intros [H | []]. discriminate H.
Qed.

(** X6.  One call of [defaultFetcher] starts with the [fetch] on its
    arguments and performs at most three operations after it, no operation
    twice; each of them is a body read of the response that [fetch]
    resolved with, or a [console.error]. *)
Theorem defaultFetcher_operations :
  forall (code : Z -> string) W (env : Env W) args w,
  exists rest,
    trace (run env (defaultFetcher code args) w) = EvFetch args :: rest
    /\ length rest <= 3
    /\ NoDup (EvFetch args :: rest)
    /\ forall ev,
        In ev rest ->
        exists r,
          fst (env _ (Fetch args) w) = Resolved r
          /\ (ev = EvJson r \/ ev = EvText r \/ exists v, ev = EvConsoleError v).
Proof.
  intros code W env args w.
  assert (Hdistinct :
            forall r body,
              NoDup [EvFetch args; EvJson r; EvText r; EvConsoleError body]).
  { intros r body. repeat constructor; cbn; intuition discriminate. }
  destruct (env _ (Fetch args) w) as [[r | e] w1] eqn:Hfetch; cbn [fst].
  - assert (Hkinds :
              forall l ev,
                incl l [EvJson r; EvText r] \/
                (exists body, incl l [EvJson r; EvText r; EvConsoleError body]) ->
                In ev l ->
                exists r0,
                  Resolved r = Resolved r0
                  /\ (ev = EvJson r0 \/ ev = EvText r0 \/ exists v, ev = EvConsoleError v)).
    { intros l ev Hl Hin. exists r. split; [ reflexivity | ].
      destruct Hl as [Hl | [body Hl]]; apply Hl in Hin; cbn in Hin.
      - destruct Hin as [<- | [<- | []]]; auto.
      - destruct Hin as [<- | [<- | [<- | []]]]; eauto. }
    destruct (ok r) eqn:Hok.
    + rewrite (defaultFetcher_ok code env args w Hfetch Hok). cbn [trace].
      exists [EvJson r]. split; [ reflexivity | ]. split; [ cbn; auto | ].
      split.
      * repeat constructor; cbn; intuition discriminate.
      * intros ev. apply Hkinds. left. intros x [<- | []]; cbn; auto.
    + rewrite (defaultFetcher_not_ok code env args w Hfetch Hok). cbn zeta.
      destruct (env _ (Json r) w1) as [[body | e] w2]; cbn [trace].
      * exists [EvJson r; EvConsoleError body].
        split; [ reflexivity | ]. split; [ cbn; auto | ]. split.
        -- repeat constructor; cbn; intuition discriminate.
        -- intros ev. apply Hkinds. right. exists body.
           intros x [<- | [<- | []]]; cbn; auto.
      * destruct (env _ (Text r) w2) as [[text | e'] w3]; cbn [trace].
        -- exists [EvJson r; EvText r; EvConsoleError (VStr text)].
           split; [ reflexivity | ]. split; [ cbn; auto | ]. split.
           ++ apply Hdistinct.
           ++ intros ev. apply Hkinds. right. exists (VStr text).
              apply incl_refl.
        -- exists [EvJson r; EvText r].
           split; [ reflexivity | ]. split; [ cbn; auto | ]. split.
           ++ repeat constructor; cbn; intuition discriminate.
           ++ intros ev. apply Hkinds. left. apply incl_refl.
  - rewrite (defaultFetcher_unreachable code env args w Hfetch). cbn [trace].
    exists []. split; [ reflexivity | ]. split; [ cbn; auto | ]. split.
    + repeat constructor. cbn. tauto.
    + intros ev [].
Qed.

(** ** The message of the failure *)

Lemma numberToString_inj (n m : Z) :
  numberToString n = numberToString m -> n = m.
Proof.
  unfold numberToString. intros Heq.
  assert (Hread : forall z,
             NilZero.int_of_string (NilZero.string_of_int (Z.to_int z))
             = Some (Z.to_int z)).
  { intros z. apply NilZero.isi; destruct z as [ | p | p]; cbn;
      try discriminate; intros H; injection H as H;
      exact (Unsigned.to_uint_nonnil p H). }
  pose proof (Hread n) as Hn. rewrite Heq, Hread in Hn.
  injection Hn as Hn.
  rewrite <- (DecimalZ.of_to n), <- (DecimalZ.of_to m), Hn. reflexivity.
Qed.

(** X7.  The message of the [TRPCError] thrown for a response whose [ok]
    flag is off tells the status: two such failures with the same message
    come from responses with the same status, whatever the arguments, the
    environments and the status mappings were. *)
Theorem failure_message_determines_status :
  forall (code1 code2 : Z -> string) W1 (env1 : Env W1) W2 (env2 : Env W2)
         args1 args2 w1 w2 r1 r2 w1' w2' c1 c2 message,
    env1 _ (Fetch args1) w1 = (Resolved r1, w1') ->
    ok r1 = false ->
    env2 _ (Fetch args2) w2 = (Resolved r2, w2') ->
    ok r2 = false ->
    outcome (run env1 (defaultFetcher code1 args1) w1) = Rejected (TRPCError c1 message) ->
    outcome (run env2 (defaultFetcher code2 args2) w2) = Rejected (TRPCError c2 message) ->
    status r1 = status r2.
Proof.
  intros code1 code2 W1 env1 W2 env2 args1 args2 w1 w2 r1 r2 w1' w2' c1 c2 message
         Hfetch1 Hok1 Hfetch2 Hok2.
  rewrite (defaultFetcher_not_ok code1 env1 args1 w1 Hfetch1 Hok1).
  rewrite (defaultFetcher_not_ok code2 env2 args2 w2 Hfetch2 Hok2). cbn zeta.
  intros H1 H2.
  assert (Hm1 : message = ("Request failed with status: " ++ numberToString (status r1))%string).
  { destruct (env1 _ (Json r1) w1') as [[body | e] w]; cbn in H1.
    - injection H1 as _ H1. symmetry. exact H1.
    - destruct (env1 _ (Text r1) w) as [[text | e'] w0]; cbn in H1;
        injection H1 as _ H1; symmetry; exact H1. }
  assert (Hm2 : message = ("Request failed with status: " ++ numberToString (status r2))%string).
  { destruct (env2 _ (Json r2) w2') as [[body | e] w]; cbn in H2.
    - injection H2 as _ H2. symmetry. exact H2.
    - destruct (env2 _ (Text r2) w) as [[text | e'] w0]; cbn in H2;
        injection H2 as _ H2; symmetry; exact H2. }
  rewrite Hm1 in Hm2. cbn in Hm2.
  apply numberToString_inj. congruence.
Qed.

(** ** Wrappers on wrappers *)

(** X8.  The function returned by [createZodFetcher] can itself be given
    to [createZodFetcher] as the fetcher.  A call through the outer
    wrapper then performs what one call of the innermost fetcher performs,
    and when the inner schema's parser returns [v1] for the body, the call
    settles as the outer schema's parser says for [v1]. *)
Theorem stacked_wrappers :
  forall (code : Z -> string) W (env : Env W) (fetcher : AnyFetcher)
         (inner : Schema Value) TData (outer : Schema TData) args w,
    let validated : AnyFetcher :=
      fun args => createZodFetcher code (Some fetcher) inner args in
    let call := run env (createZodFetcher code (Some validated) outer args) w in
    trace call = trace (run env (fetcher args) w)
    /\ world call = world (run env (fetcher args) w)
    /\ forall body parser1 v1 parser2,
        outcome (run env (fetcher args) w) = Resolved body ->
        Selected inner parser1 ->
        parse parser1 body = Resolved v1 ->
        Selected outer parser2 ->
        outcome call = parse parser2 v1.
Proof.
  intros code W env fetcher inner TData outer args w validated call.
  destruct (createZodFetcher_effects code env (Some validated) outer args w)
    as [Htrace Hworld].
  destruct (createZodFetcher_effects code env (Some fetcher) inner args w)
    as [Htrace' Hworld'].
  cbn [transportOf] in *. subst call.
  split; [ rewrite Htrace; exact Htrace' | ].
  split; [ rewrite Hworld; exact Hworld' | ].
  intros body parser1 v1 parser2 Hbody Hsel1 Hparse1 Hsel2.
  assert (Hinner : outcome (run env (validated args) w) = Resolved v1).
  { unfold validated.
    rewrite (createZodFetcher_selected code env (Some fetcher) inner _ args w _ Hbody Hsel1).
    exact Hparse1. }
  rewrite (createZodFetcher_selected code env (Some validated) outer _ args w _ Hinner Hsel2).
  reflexivity.
Qed.

(** ** The flag behind the title *)

(** X9.  The consumer-mode flag is seen through its truth value only: two
    flag values give the same product title exactly when they are both
    truthy or both falsy, and then the whole [metadata] and the [<meta>]
    elements of the head agree as well. *)
Theorem title_follows_truthiness :
  forall mode1 mode2,
    (title mode1 = title mode2 <-> truthy mode1 = truthy mode2)
    /\ (metadata mode1 = metadata mode2 <-> truthy mode1 = truthy mode2)
    /\ (RootLayout_head mode1 = RootLayout_head mode2 <-> truthy mode1 = truthy mode2).
Proof.
  intros mode1 mode2. unfold metadata, RootLayout_head, title.
  destruct (truthy mode1), (truthy mode2);
    repeat split; intros H; try reflexivity; try discriminate H.
Qed.

(** * The further properties at sample inputs *)

Lemma transport_rejection_propagates_witness :
  let args := [VStr "https://example.com/nowhere"] in
  let unreachable := NativeError "TypeError" "fetch failed" in
  outcome (run sampleEnv (callerFetcher args) tt) = Rejected unreachable
  /\ run sampleEnv (createZodFetcher sampleCode (Some callerFetcher) helloSchema args) tt
     = mkRun (Rejected unreachable) tt [EvInvoke args]
  /\ sampleEnv _ (Fetch args) tt = (Rejected unreachable, tt)
  /\ run sampleEnv (createZodFetcher sampleCode None helloSchema args) tt
     = mkRun (Rejected unreachable) tt [EvFetch args].
Proof.
  intros args unreachable.
  destruct (transport_rejection_propagates
              sampleCode unit sampleEnv Value helloSchema args tt unreachable)
    as [Hgiven Hdefault].
  split; [ reflexivity | ]. split.
  - apply (Hgiven (Some callerFetcher)). reflexivity.
  - split; [ reflexivity | ]. apply (Hdefault tt). reflexivity.
Defined.

Lemma resolved_value_is_validated_witness :
  let args := [VStr "https://example.com/more"] in
  let kept := VObj [("hello", VStr "world")] in
  outcome (run sampleEnv (createZodFetcher sampleCode None helloStrict args) tt)
  = Resolved kept
  /\ exists body parser,
      outcome (run sampleEnv (transportOf sampleCode None args) tt) = Resolved body
      /\ Selected helloStrict parser
      /\ parse parser body = Resolved kept.
Proof.
  intros args kept. split; [ reflexivity | ].
  apply (resolved_value_is_validated
           sampleCode unit sampleEnv Value helloStrict None args tt kept).
  reflexivity.
Defined.

Lemma defaultFetcher_resolves_iff_witness :
  let args := [VStr "https://example.com/hello"] in
  let body := VObj [("hello", VStr "world")] in
  (exists r w1,
      sampleEnv _ (Fetch args) tt = (Resolved r, w1)
      /\ ok r = true
      /\ fst (sampleEnv _ (Json r) w1) = Resolved body)
  /\ outcome (run sampleEnv (defaultFetcher sampleCode args) tt) = Resolved body.
Proof.
  intros args body.
  assert (Hright : exists r w1,
             sampleEnv _ (Fetch args) tt = (Resolved r, w1)
             /\ ok r = true
             /\ fst (sampleEnv _ (Json r) w1) = Resolved body).
  { exists helloWorld, tt. repeat split. }
  split; [ exact Hright | ].
  apply (proj2 (defaultFetcher_resolves_iff sampleCode unit sampleEnv args tt body)).
  exact Hright.
Defined.

Lemma default_failure_origins_witness :
  let args := [VStr "https://example.com/number"] in
  (passthrough helloSchema <> None \/ own helloSchema <> None)
  /\ outcome (run sampleEnv (createZodFetcher sampleCode None helloSchema args) tt)
     = Rejected zodError
  /\ ((exists w1, sampleEnv _ (Fetch args) tt = (Rejected zodError, w1))
      \/ (exists r w1,
             sampleEnv _ (Fetch args) tt = (Resolved r, w1)
             /\ ok r = false
             /\ zodError
                = TRPCError (sampleCode (status r))
                    ("Request failed with status: " ++ numberToString (status r))%string)
      \/ (exists r w1,
             sampleEnv _ (Fetch args) tt = (Resolved r, w1)
             /\ ok r = true
             /\ fst (sampleEnv _ (Json r) w1) = Rejected zodError)
      \/ (exists r w1 body,
             sampleEnv _ (Fetch args) tt = (Resolved r, w1)
             /\ ok r = true
             /\ fst (sampleEnv _ (Json r) w1) = Resolved body
             /\ SchemaRaises helloSchema body zodError)).
Proof.
  intros args.
  assert (Hschema : passthrough helloSchema <> None \/ own helloSchema <> None).
  { left. discriminate. }
  split; [ exact Hschema | ]. split; [ reflexivity | ].
  apply (default_failure_origins
           sampleCode unit sampleEnv Value helloSchema args tt zodError Hschema).
  reflexivity.
Defined.

Lemma console_error_only_on_failure_witness :
  let args := [VStr "https://example.com/down"] in
  let logged := VStr "Service Unavailable" in
  In (EvConsoleError logged) (trace (run sampleEnv (defaultFetcher sampleCode args) tt))
  /\ exists r w1,
      sampleEnv _ (Fetch args) tt = (Resolved r, w1)
      /\ ok r = false
      /\ (fst (sampleEnv _ (Json r) w1) = Resolved logged
          \/ exists e text,
              fst (sampleEnv _ (Json r) w1) = Rejected e
              /\ fst (sampleEnv _ (Text r) (snd (sampleEnv _ (Json r) w1))) = Resolved text
              /\ logged = VStr text).
Proof.
  intros args logged.
  assert (Hin : In (EvConsoleError logged)
                   (trace (run sampleEnv (defaultFetcher sampleCode args) tt))).
  { cbn. auto. }
  split; [ exact Hin | ].
  apply (console_error_only_on_failure sampleCode unit sampleEnv args tt logged Hin).
Defined.

Lemma failure_message_determines_status_witness :
  let args := [VStr "https://example.com/missing"] in
  let message := "Request failed with status: 404" in
  sampleEnv _ (Fetch args) tt = (Resolved notFound, tt)
  /\ streamEnv _ (Fetch args) 0 = (Resolved notFound, 0)
  /\ ok notFound = false
  /\ outcome (run sampleEnv (defaultFetcher sampleCode args) tt)
     = Rejected (TRPCError "NOT_FOUND" message)
  /\ outcome (run streamEnv (defaultFetcher (fun _ => "BAD_REQUEST") args) 0)
     = Rejected (TRPCError "BAD_REQUEST" message)
  /\ status notFound = status notFound.
Proof.
  intros args message.
  repeat (split; [ reflexivity | ]).
  apply (failure_message_determines_status
           sampleCode (fun _ => "BAD_REQUEST") unit sampleEnv nat streamEnv
           args args tt 0 notFound notFound tt 0 "NOT_FOUND" "BAD_REQUEST" message);
    reflexivity.
Defined.

Lemma stacked_wrappers_witness :
  let args := [VStr "https://example.com/more"] in
  let body := VObj [("hello", VStr "world"); ("more", VNum 1)] in
  let kept := VObj [("hello", VStr "world")] in
  let validated : AnyFetcher :=
    fun args => createZodFetcher sampleCode (Some exampleFetcher) helloStrict args in
  let call :=
    run sampleEnv (createZodFetcher sampleCode (Some validated) helloSchema args) tt in
  outcome (run sampleEnv (exampleFetcher args) tt) = Resolved body
  /\ Selected helloStrict (mkParser (helloParse false))
  /\ parse (mkParser (helloParse false)) body = Resolved kept
  /\ Selected helloSchema (mkParser (helloParse true))
  /\ outcome call = Resolved kept
  /\ trace call = [EvFetch args; EvJson helloMore].
Proof.
  intros args body kept validated call.
  assert (Hinner : Selected helloStrict (mkParser (helloParse false))).
  { apply selected_own; reflexivity. }
  assert (Houter : Selected helloSchema (mkParser (helloParse true))).
  { eapply selected_relaxed; reflexivity. }
  destruct (stacked_wrappers
              sampleCode unit sampleEnv exampleFetcher helloStrict Value helloSchema args tt)
    as (Htrace & _ & Hcall).
  split; [ reflexivity | ]. split; [ exact Hinner | ]. split; [ reflexivity | ].
  split; [ exact Houter | ]. split.
  - apply (Hcall body (mkParser (helloParse false)) kept (mkParser (helloParse true)));
      [ reflexivity | exact Hinner | reflexivity | exact Houter ].
  - exact Htrace.
Defined.
